(** * wechat/param.go: credential loading, request signing and the sandbox
      key exchange of the WeChat client.

    The Go functions of [param.go] are embedded as Rocq functions.  What the
    file calls in other packages (the file system, [crypto/tls], [pkcs12],
    [crypto/md5], [crypto/hmac], [encoding/xml], the [xhttp] client, the
    random string source) is taken as a record of operations, so every
    statement holds for all behaviours of these collaborators. *)

From Stdlib Require Import Strings.String Strings.Ascii Strings.Byte.
From stdpp Require Import base option list strings gmap.

Local Open Scope string_scope.

(** ** Go values *)

(** A byte slice: [None] is the nil slice, [Some []] an empty slice that is
    not nil.  The loader compares slices with nil, so the two are kept apart. *)
Definition bytes := option (list byte).

Definition slice_data (b : bytes) : list byte := default [] b.

(** Go's [len] on a byte slice. *)
Definition len (b : bytes) : nat := length (slice_data b).

Definition is_nil_slice (b : bytes) : bool :=
  match b with None => true | Some _ => false end.

(** [append(s, xs...)]: appending no element gives back [s] itself, so a nil
    slice stays nil. *)
Definition append (s xs : bytes) : bytes :=
  match slice_data xs with
  | [] => s
  | d => Some (slice_data s ++ d)%list
  end.

(** An [interface{}] argument, by dynamic type.  [Bytes None] is a nil
    [[]byte] stored in an interface, which is not the nil interface. *)
Inductive iface : Type :=
| Nil
| Str (s : string)
| Bytes (b : bytes)
| Other.

Definition is_nil (v : iface) : bool :=
  match v with Nil => true | _ => false end.

(** Go errors: [errors.New] (and [fmt.Errorf] without a wrapping verb),
    [fmt.Errorf] with the wrapping verb, which keeps its cause, and errors made
    by other packages.  [Wrapf p e] stands for the error whose format is [p],
    a full-width colon and the wrapping verb applied to [e]. *)
Inductive error : Type :=
| New (msg : string)
| Wrapf (prefix : string) (cause : error)
| Foreign (msg : string).

(** A call either returns or panics (failed type assertion, nil dereference,
    index out of range). *)
Inductive exec (A : Type) : Type :=
| Done (a : A)
| Panic (reason : string).
Arguments Done {A} a.
Arguments Panic {A} reason.

(** Modelled from the spec: [gotil.NULL] is declared in another package; the
    spec reads it as the empty string. *)
Definition NULL : string := "".

(** ** The credential loader *)

Section Loader.

(** [tls.Certificate] and [pem.Block]. *)
Context {Cert Block : Type}.

(** [tls.Config], with the two fields the loader sets. *)
Record tlsConfig : Type := mkConfig {
  Certificates : list Cert;
  InsecureSkipVerify : bool
}.

(** The client, without its lock: the merchant id and the cached
    certificate ([w.certificate], nil when nothing is cached). *)
Record Client : Type := mkClient {
  MchId : string;
  certificate : option Cert
}.

(** The packages the loader calls.  Each operation returns what the Go
    function returns: a value and an error that may be nil. *)
Record Host : Type := mkHost {
  ReadFile : string -> bytes * option error;
  X509KeyPair : bytes -> bytes -> Cert * option error;
  ToPEM : bytes -> string -> list Block * option error;
  EncodeToMemory : Block -> bytes
}.

Variable host : Host.

(** Lines 102-106 and 107-111: a [[]byte] is used as it is, anything else
    is asserted to be a string and read from disk; the assertion panics on
    another type.  [err] is the error variable before the statement. *)
Definition loadPem (v : iface) (err : option error)
  : exec (bytes * option error) :=
  match v with
  | Bytes b => Done (b, err)
  | Str path => Done (ReadFile host path)
  | _ => Panic "interface conversion: interface {} is not string"
  end.

(** Lines 128-130. *)
Definition encodeBlocks (blocks : list Block) : bytes :=
  fold_left (fun keyPem b => append keyPem (EncodeToMemory host b)) blocks None.

(** Lines 133-143. *)
Definition parsePair (certPem keyPem : bytes)
  : exec (option tlsConfig * option error) :=
  if negb (is_nil_slice certPem) && negb (is_nil_slice keyPem) then
    match X509KeyPair host certPem keyPem with
    | (_, Some err) => Done (None, Some (Wrapf "tls.LoadX509KeyPair" err))
    | (crt, None) =>
        Done (Some {| Certificates := [crt]; InsecureSkipVerify := true |}, None)
    end
  else Done (None, Some (New "cert files must all nil or all not nil")).

(** Lines 97-143, the part after the cache lookup. *)
Definition loadCertConfig (w : Client) (certFile keyFile pkcs12File : iface)
  : exec (option tlsConfig * option error) :=
  if negb (is_nil certFile) && negb (is_nil keyFile) then
    match loadPem certFile None with
    | Panic r => Panic r
    | Done (certPem, err) =>
        match loadPem keyFile err with
        | Panic r => Panic r
        | Done (keyPem, err) =>
            match err with
            | Some e => Done (None, Some (Wrapf "ioutil.ReadFile" e))
            | None => parsePair certPem keyPem
            end
        end
    end
  else if negb (is_nil pkcs12File) then
    let pfx : exec (bytes * option error) :=
      match pkcs12File with
      | Bytes b => Done (b, None)
      | Str path => Done (ReadFile host path)
      | _ => Panic "interface conversion: interface {} is not string"
      end in
    match pfx with
    | Panic r => Panic r
    | Done (_, Some e) => Done (None, Some (Wrapf "ioutil.ReadFile" e))
    | Done (pfxData, None) =>
        match ToPEM host pfxData (MchId w) with
        | (_, Some e) => Done (None, Some (Wrapf "pkcs12.ToPEM" e))
        | (blocks, None) =>
            let keyPem := encodeBlocks blocks in
            parsePair keyPem keyPem
        end
    end
  else parsePair None None.

(** [addCertConfig], lines 84-144. *)
Definition addCertConfig (w : Client) (certFile keyFile pkcs12File : iface)
  : exec (option tlsConfig * option error) :=
  if is_nil certFile && is_nil keyFile && is_nil pkcs12File then
    match certificate w with
    | Some crt =>
        Done (Some {| Certificates := [crt]; InsecureSkipVerify := true |}, None)
    | None => loadCertConfig w certFile keyFile pkcs12File
    end
  else loadCertConfig w certFile keyFile pkcs12File.

(** One arm of the type switches of [checkCertFilePath], lines 153-164. *)
Definition checkVar (varName : string) (v : iface) : option error :=
  match v with
  | Str s => if String.eqb s NULL then Some (New (varName ++ " is empty")) else None
  | Bytes b => if Nat.eqb (len b) 0 then Some (New (varName ++ " is empty")) else None
  | _ => Some (New (varName ++ " type error"))
  end.

(** The loop of lines 152-165 over the entries of [files], in the order the
    map yields them. *)
Fixpoint checkFiles (files : list (string * iface)) : option error :=
  match files with
  | [] => None
  | (varName, v) :: rest =>
      match checkVar varName v with
      | Some e => Some e
      | None => checkFiles rest
      end
  end.

(** [checkCertFilePath], lines 146-184.  Go does not fix the order in which
    [range] visits a map; [certFirst] says whether the entry of
    [certFilePath] comes first. *)
Definition checkCertFilePath (certFirst : bool)
    (certFilePath keyFilePath pkcs12FilePath : iface) : option error :=
  if is_nil certFilePath && is_nil keyFilePath && is_nil pkcs12FilePath then None
  else if negb (is_nil certFilePath) && negb (is_nil keyFilePath) then
    checkFiles
      (if certFirst
       then [("certFilePath", certFilePath); ("keyFilePath", keyFilePath)]
       else [("keyFilePath", keyFilePath); ("certFilePath", certFilePath)])
  else if negb (is_nil pkcs12FilePath) then
    match pkcs12FilePath with
    | Str s => if String.eqb s NULL then Some (New "pkcs12FilePath is empty") else None
    | Bytes b => if Nat.eqb (len b) 0 then Some (New "pkcs12FilePath is empty") else None
    | _ => Some (New "pkcs12FilePath type error")
    end
  else Some (New "certFilePath keyFilePath must all nil or all not nil").

(** [AddCertFilePath], lines 51-63: the client after the call and the
    returned error. *)
Definition AddCertFilePath (certFirst : bool) (w : Client)
    (certFilePath keyFilePath pkcs12FilePath : iface)
  : exec (Client * option error) :=
  match checkCertFilePath certFirst certFilePath keyFilePath pkcs12FilePath with
  | Some err => Done (w, Some err)
  | None =>
      match addCertConfig w certFilePath keyFilePath pkcs12FilePath with
      | Panic r => Panic r
      | Done (_, Some err) => Done (w, Some err)
      | Done (None, None) => Panic "nil pointer dereference"
      | Done (Some config, None) =>
          match Certificates config with
          | crt :: _ => Done ({| MchId := MchId w; certificate := Some crt |}, None)
          | [] => Panic "index out of range"
          end
      end
  end.

(** Lines 70-82: the wrappers that pass byte slices. *)
Definition AddCertFileContent (certFirst : bool) (w : Client)
    (certFileContent keyFileContent pkcs12FileContent : bytes) :=
  AddCertFilePath certFirst w
    (Bytes certFileContent) (Bytes keyFileContent) (Bytes pkcs12FileContent).

Definition AddCertPemFileContent (certFirst : bool) (w : Client)
    (certFileContent keyFileContent : bytes) :=
  AddCertFilePath certFirst w (Bytes certFileContent) (Bytes keyFileContent) Nil.

Definition AddCertPkcs12FileContent (certFirst : bool) (w : Client)
    (pkcs12FileContent : bytes) :=
  AddCertFilePath certFirst w Nil Nil (Bytes pkcs12FileContent).

End Loader.

Arguments tlsConfig : clear implicits.
Arguments Client : clear implicits.
Arguments Host : clear implicits.

(** ** The signature engine *)

(** Modelled from the spec: the constants [SignType_MD5] and
    [SignType_HMAC_SHA256] are declared in the package's constants file, which
    is not part of [param.go]; the spec names the two variants MD5 and
    HMAC-SHA256. *)
Definition SignType_MD5 : string := "MD5".
Definition SignType_HMAC_SHA256 : string := "HMAC-SHA256".

(** The value of [var h hash.Hash] after lines 189-193. *)
Inductive Hash : Type :=
| hmac_New_sha256 (key : list byte)
| md5_New.

(** Modelled from the spec: [gopay.BodyMap] and its method [Set] are declared
    in the root package, not in [param.go]; the spec's ParameterSet is a
    mapping from parameter name to string value, and [param.go] stores
    strings only. *)
Abbreviation BodyMap := (gmap string string).

(** [bm.Set(key, value)]. *)
Definition Set_ (key value : string) (bm : BodyMap) : BodyMap := <[key:=value]> bm.

(** What the signing code calls in other packages: the two digests, the
    canonical encoding of a parameter set ([bm.EncodeWeChatSignParams]) and
    [xml.Marshal] on a parameter set. *)
Record Codec : Type := mkCodec {
  md5_Sum : list byte -> list byte;
  hmac_sha256_Sum : list byte -> list byte -> list byte;
  EncodeWeChatSignParams : BodyMap -> string -> string;
  xml_Marshal : BodyMap -> list byte * option error
}.

(** [hex.EncodeToString]. *)
Definition hexdigit (n : N) : ascii :=
  nth (N.to_nat n)
      (list_ascii_of_string "0123456789abcdef") "0"%char.

Definition hexbyte (b : byte) : list ascii :=
  [hexdigit (Byte.to_N b / 16)%N; hexdigit (Byte.to_N b mod 16)%N].

Definition EncodeToString (src : list byte) : string :=
  string_of_list_ascii (concat (map hexbyte src)).

(** [strings.ToUpper] on ASCII text; the file applies it to the output of
    [hex.EncodeToString] only. *)
Definition upper (c : ascii) : ascii :=
  let n := N_of_ascii c in
  if (97 <=? n)%N && (n <=? 122)%N then ascii_of_N (n - 32) else c.

Definition ToUpper (s : string) : string :=
  string_of_list_ascii (map upper (list_ascii_of_string s)).

Section Signing.

Variable codec : Codec.

(** Lines 188-193. *)
Definition selectHash (apiKey signType : string) : Hash :=
  if String.eqb signType SignType_HMAC_SHA256
  then hmac_New_sha256 (list_byte_of_string apiKey)
  else md5_New.

(** [h.Write(data)] followed by [h.Sum(nil)]. *)
Definition digest (h : Hash) (data : list byte) : list byte :=
  match h with
  | hmac_New_sha256 key => hmac_sha256_Sum codec key data
  | md5_New => md5_Sum codec data
  end.

(** [getReleaseSign], lines 187-196. *)
Definition getReleaseSign (apiKey signType : string) (bm : BodyMap) : string :=
  let h := selectHash apiKey signType in
  ToUpper (EncodeToString
             (digest h (list_byte_of_string (EncodeWeChatSignParams codec bm apiKey)))).

(** [generateXml], lines 244-250. *)
Definition generateXml (bm : BodyMap) : string :=
  match xml_Marshal codec bm with
  | (_, Some _) => NULL
  | (bs, None) => string_of_list_byte bs
  end.

End Signing.

(** ** The sandbox key exchange *)

(** Modelled from the spec: [getSignKeyResponse] is declared in another file
    of the package; the spec's RemoteKeyResponse carries a status code
    ([return_code]), a message ([return_msg]) and the derived key
    ([sandbox_signkey]), the three fields [param.go] reads. *)
Record getSignKeyResponse : Type := mkResponse {
  ReturnCode : string;
  ReturnMsg : string;
  SandboxSignkey : string
}.

(** The state the exchange acts on: the requests posted so far (url and
    body) and the number of random strings drawn. *)
Record World : Type := mkWorld {
  posted : list (string * string);
  drawn : nat
}.

(** The network and the random source, with the endpoint constant
    [sandboxGetSignKey], which is declared outside [param.go].
    [EndStruct history url body] is what
    [xhttp] hands back for a POST of [body] to [url] after the requests of
    [history]: the decoded response and the errors of the call.
    [GetRandomString k n] is the [k]-th random string, asked with length [n]. *)
Record Remote : Type := mkRemote {
  sandboxGetSignKey : string;
  EndStruct : list (string * string) -> string -> string
              -> getSignKeyResponse * list error;
  GetRandomString : nat -> nat -> string
}.

(** State passing over [World]. *)
Definition M (A : Type) : Type := World -> A * World.

Definition ret {A} (a : A) : M A := fun σ => (a, σ).

Definition bind {A B} (m : M A) (k : A -> M B) : M B :=
  fun σ => let (a, σ') := m σ in k a σ'.

Notation "'let*' x ':=' m 'in' k" := (bind m (fun x => k))
  (at level 10, x pattern, m at level 100, k at level 200, only parsing).

Section Sandbox.

Variable codec : Codec.
Variable remote : Remote.

(** [xhttp.NewClient().Type(TypeXML).Post(url).SendString(body).EndStruct(v)]. *)
Definition Post (url body : string) : M (getSignKeyResponse * list error) :=
  fun σ => (EndStruct remote (posted σ) url body,
            {| posted := posted σ ++ [(url, body)]; drawn := drawn σ |}).

(** [gotil.GetRandomString(n)]. *)
Definition randomString (n : nat) : M string :=
  fun σ => (GetRandomString remote (drawn σ) n,
            {| posted := posted σ; drawn := S (drawn σ) |}).

(** [getSanBoxSignKey], lines 226-241. *)
Definition getSanBoxSignKey (mchId nonceStr sign : string)
  : M (string * option error) :=
  let reqs := Set_ "sign" sign (Set_ "nonce_str" nonceStr (Set_ "mch_id" mchId ∅)) in
  let* (keyResponse, errs) :=
    Post (sandboxGetSignKey remote) (generateXml codec reqs) in
  match errs with
  | e :: _ => ret (NULL, Some e)
  | [] =>
      if String.eqb (ReturnCode keyResponse) "FAIL"
      then ret (NULL, Some (New (ReturnMsg keyResponse)))
      else ret (SandboxSignkey keyResponse, None)
  end.

(** [getSanBoxKey], lines 214-223. *)
Definition getSanBoxKey (mchId nonceStr apiKey signType : string)
  : M (string * option error) :=
  let bm := Set_ "nonce_str" nonceStr (Set_ "mch_id" mchId ∅) in
  getSanBoxSignKey mchId nonceStr (getReleaseSign codec apiKey signType bm).

(** [getSignBoxSign], lines 199-211. *)
Definition getSignBoxSign (mchId apiKey : string) (bm : BodyMap)
  : M (string * option error) :=
  let* nonceStr := randomString 32 in
  let* (sandBoxApiKey, err) := getSanBoxKey mchId nonceStr apiKey SignType_MD5 in
  match err with
  | Some e => ret (NULL, Some e)
  | None =>
      ret (ToUpper (EncodeToString
                      (md5_Sum codec
                         (list_byte_of_string
                            (EncodeWeChatSignParams codec bm sandBoxApiKey)))),
           None)
  end.

End Sandbox.

(** ** The spec's error kinds, read on the errors the code makes *)

(** The messages of the argument checks: those of [checkCertFilePath] and the
    last line of [addCertConfig]. *)
Definition configurationMessages : list string :=
  [ "certFilePath is empty"; "certFilePath type error";
    "keyFilePath is empty"; "keyFilePath type error";
    "pkcs12FilePath is empty"; "pkcs12FilePath type error";
    "certFilePath keyFilePath must all nil or all not nil";
    "cert files must all nil or all not nil" ].

(** A [ConfigurationError] is an unwrapped error with one of these messages. *)
Definition ConfigurationError (e : error) : bool :=
  match e with
  | New msg => existsb (String.eqb msg) configurationMessages
  | _ => false
  end.

(** An [IOError] wrapping [cause] is the error line 113 (and line 121) builds
    around a read error. *)
Definition IOError (e cause : error) : Prop := e = Wrapf "ioutil.ReadFile" cause.

(** An argument that is nil, an empty string or a byte slice of length 0. *)
Definition absent_or_empty (v : iface) : bool :=
  match v with
  | Nil => true
  | Str s => String.eqb s NULL
  | Bytes b => Nat.eqb (len b) 0
  | Other => false
  end.

Definition provided (v : iface) : bool := negb (absent_or_empty v).

(** The request [getSanBoxSignKey] builds, lines 227-230. *)
Definition keyRequest (mchId nonceStr sign : string) : BodyMap :=
  Set_ "sign" sign (Set_ "nonce_str" nonceStr (Set_ "mch_id" mchId ∅)).

(** ** Concrete collaborators, to run the functions on examples *)

Module Sample.

(** A certificate is the pair of PEM inputs it was parsed from, a block is
    its bytes. *)
Definition Cert : Type := list byte * list byte.
Definition Block : Type := list byte.

(** A disk where [missing.pem] does not exist and every other path can be
    read; a parser that rejects empty input only. *)
Definition host : Host Cert Block :=
  {| ReadFile := fun path =>
       if String.eqb path "missing.pem"
       then (None, Some (Foreign "open missing.pem: no such file or directory"))
       else (Some (list_byte_of_string ("PEM " ++ path)), None);
     X509KeyPair := fun c k =>
       if Nat.eqb (len c) 0
       then (([], []), Some (Foreign "tls: failed to find any PEM data in certificate input"))
       else ((slice_data c, slice_data k), None);
     ToPEM := fun pfx _ => ([slice_data pfx], None);
     EncodeToMemory := fun b => Some b |}.

Definition client : Client Cert := {| MchId := "1900000109"; certificate := None |}.

(** Stand-ins for the digests (they only tag and truncate their input) and
    for the encoders; [xmlFails] makes [xml.Marshal] return an error. *)
Definition codec (xmlFails : bool) : Codec :=
  {| md5_Sum := fun d => take 16 (d ++ repeat "000"%byte 16);
     hmac_sha256_Sum := fun k d => take 32 (k ++ d ++ repeat "000"%byte 32);
     EncodeWeChatSignParams := fun bm key =>
       default "" (bm !! "mch_id") ++ "&key=" ++ key;
     xml_Marshal := fun bm =>
       if xmlFails then ([], Some (Foreign "xml: unsupported type"))
       else (list_byte_of_string ("<xml>" ++ default "" (bm !! "sign") ++ "</xml>"), None) |}.

Definition url : string := "https://api.mch.weixin.qq.com/sandboxnew/pay/getsignkey".

(** A provider that answers SUCCESS with a key, one that answers FAIL, and
    a network that is down. *)
Definition remoteOk : Remote :=
  {| sandboxGetSignKey := url;
     EndStruct := fun _ _ _ =>
       ({| ReturnCode := "SUCCESS"; ReturnMsg := "OK"; SandboxSignkey := "sandbox-key" |}, []);
     GetRandomString := fun _ n => string_of_list_ascii (repeat "a"%char n) |}.

Definition remoteFail : Remote :=
  {| sandboxGetSignKey := url;
     EndStruct := fun _ _ _ =>
       ({| ReturnCode := "FAIL"; ReturnMsg := "invalid mch_id"; SandboxSignkey := "" |}, []);
     GetRandomString := fun _ n => string_of_list_ascii (repeat "a"%char n) |}.

Definition remoteDown : Remote :=
  {| sandboxGetSignKey := url;
     EndStruct := fun _ _ _ =>
       ({| ReturnCode := ""; ReturnMsg := ""; SandboxSignkey := "" |},
        [Foreign "dial tcp: i/o timeout"; Foreign "EOF"]);
     GetRandomString := fun _ n => string_of_list_ascii (repeat "a"%char n) |}.

(** A provider whose answer carries neither a status nor a key. *)
Definition remoteBlank : Remote :=
  {| sandboxGetSignKey := url;
     EndStruct := fun _ _ _ =>
       ({| ReturnCode := ""; ReturnMsg := ""; SandboxSignkey := "" |}, []);
     GetRandomString := fun _ n => string_of_list_ascii (repeat "a"%char n) |}.

Definition world0 : World := {| posted := []; drawn := 0 |}.

End Sample.

(** ** Notions used to state the behaviour of the code *)

(** An argument the type switches of [checkCertFilePath] let through: a
    string that is not empty or a byte slice of positive length. *)
Definition usable (v : iface) : bool :=
  match v with
  | Str s => negb (String.eqb s NULL)
  | Bytes b => negb (Nat.eqb (len b) 0)
  | _ => false
  end.

(** The same packages over another disk. *)
Definition withDisk {Cert Block : Type} (host : Host Cert Block)
    (disk : string -> bytes * option error) : Host Cert Block :=
  {| ReadFile := disk;
     X509KeyPair := X509KeyPair host;
     ToPEM := ToPEM host;
     EncodeToMemory := EncodeToMemory host |}.


(** The same client with another cache. *)
Definition withCache {Cert : Type} (w : Client Cert) (cache : option Cert)
  : Client Cert :=
  {| MchId := MchId w; certificate := cache |}.

(** The characters of an upper-case hexadecimal text. *)
Definition is_upper_hex (c : ascii) : bool :=
  existsb (Ascii.eqb c) (list_ascii_of_string "0123456789ABCDEF").

(** Reading an upper-case hexadecimal text back, two characters a byte; used
    to state that a signature determines its digest. *)
Definition hexval (c : ascii) : option N :=
  let n := N_of_ascii c in
  if (48 <=? n)%N && (n <=? 57)%N then Some (n - 48)%N
  else if (65 <=? n)%N && (n <=? 70)%N then Some (n - 55)%N
  else None.

Fixpoint decodeUpper (cs : list ascii) : option (list byte) :=
  match cs with
  | [] => Some []
  | hi :: lo :: rest =>
      match hexval hi, hexval lo, decodeUpper rest with
      | Some h, Some l, Some bs =>
          match Byte.of_N (h * 16 + l) with
          | Some b => Some (b :: bs)
          | None => None
          end
      | _, _, _ => None
      end
  | _ => None
  end.

(** Equality of errors, and [errors.Is]: whether [target] is [err] or one of
    the causes [err] wraps. *)
Fixpoint error_eqb (a b : error) : bool :=
  match a, b with
  | New x, New y => String.eqb x y
  | Wrapf p c, Wrapf q d => String.eqb p q && error_eqb c d
  | Foreign x, Foreign y => String.eqb x y
  | _, _ => false
  end.

Fixpoint Is (err target : error) : bool :=
  error_eqb err target
  || match err with
     | Wrapf _ cause => Is cause target
     | _ => false
     end.

(** * Properties *)

(** ** The loader *)

Section LoaderFacts.

Context {Cert Block : Type}.
Variable host : Host Cert Block.
Implicit Types (w : Client Cert) (cert key pfx : iface).

Lemma is_nil_false v : is_nil v = false <-> v <> Nil.
Proof. destruct v; simpl; split; congruence. Qed.

Lemma checkVar_is_configuration varName v e :
  varName = "certFilePath" \/ varName = "keyFilePath" ->
  checkVar varName v = Some e -> ConfigurationError e = true.
Proof.
  intros Hname Hchk.
  destruct v as [|s|b|]; simpl in Hchk;
    repeat match type of Hchk with
           | (if ?c then _ else _) = _ => destruct c; [|discriminate]
           end;
    injection Hchk as <-; destruct Hname as [-> | ->]; reflexivity.
Qed.

(** Every error of [checkCertFilePath] is a [ConfigurationError]. *)
Lemma checkCertFilePath_is_configuration certFirst cert key pfx e :
  checkCertFilePath certFirst cert key pfx = Some e ->
  ConfigurationError e = true.
Proof.
  unfold checkCertFilePath.
  destruct (is_nil cert && is_nil key && is_nil pfx); [discriminate|].
  destruct (negb (is_nil cert) && negb (is_nil key)).
  - destruct certFirst; simpl;
      repeat match goal with
             | |- context [checkVar ?n ?v] =>
                 let H := fresh "Hv" in
                 destruct (checkVar n v) eqn:H;
                 [apply checkVar_is_configuration in H; [|auto]|]
             end; intros Heq; try discriminate; injection Heq as <-; assumption.
  - destruct (negb (is_nil pfx)).
    + destruct pfx as [|s|b|]; simpl;
        repeat match goal with
               | |- context [if ?c then _ else _] => destruct c
               end; intros Heq; try discriminate; injection Heq as <-; reflexivity.
    + intros Heq; injection Heq as <-; reflexivity.
Qed.

(** A failed check leaves the client as it was. *)
Lemma AddCertFilePath_check_failed certFirst w cert key pfx e :
  checkCertFilePath certFirst cert key pfx = Some e ->
  AddCertFilePath host certFirst w cert key pfx = Done (w, Some e).
Proof. intros H. unfold AddCertFilePath. rewrite H. reflexivity. Qed.

Lemma parsePair_skips_verification certPem keyPem config err :
  parsePair host certPem keyPem = Done (Some config, err) ->
  InsecureSkipVerify config = true.
Proof.
  unfold parsePair.
  destruct (negb (is_nil_slice certPem) && negb (is_nil_slice keyPem)); [|discriminate].
  destruct (X509KeyPair host certPem keyPem) as [crt [e|]]; [discriminate|].
  intros Heq. injection Heq as <- _. reflexivity.
Qed.

Lemma loadCertConfig_skips_verification w cert key pfx config err :
  loadCertConfig host w cert key pfx = Done (Some config, err) ->
  InsecureSkipVerify config = true.
Proof.
  unfold loadCertConfig.
  destruct (negb (is_nil cert) && negb (is_nil key)).
  - destruct (loadPem host cert None) as [[certPem e1]|]; [|discriminate].
    destruct (loadPem host key e1) as [[keyPem e2]|]; [|discriminate].
    destruct e2; [discriminate|]. apply parsePair_skips_verification.
  - destruct (negb (is_nil pfx)); [|apply parsePair_skips_verification].
    destruct pfx as [|path|b|]; try discriminate.
    + destruct (ReadFile host path) as [pfxData [e|]]; [discriminate|].
      destruct (ToPEM host pfxData (MchId w)) as [blocks [e|]]; [discriminate|].
      apply parsePair_skips_verification.
    + destruct (ToPEM host b (MchId w)) as [blocks [e|]]; [discriminate|].
      apply parsePair_skips_verification.
Qed.

(** When nothing is cached and nothing is passed, the loader ends on its
    last line. *)
Lemma loadCertConfig_nothing w :
  loadCertConfig host w Nil Nil Nil =
    Done (None, Some (New "cert files must all nil or all not nil")).
Proof. reflexivity. Qed.

(** The read of the key file decides the error variable: a failed read of
    the key is reported, wrapped. *)
Lemma loadCertConfig_key_read_failed w cert path pfx data cause :
  cert <> Nil -> cert <> Other ->
  ReadFile host path = (data, Some cause) ->
  exists e, loadCertConfig host w cert (Str path) pfx = Done (None, Some e)
            /\ IOError e cause.
Proof.
  intros Hnil Hother Hread. exists (Wrapf "ioutil.ReadFile" cause).
  split; [|reflexivity].
  unfold loadCertConfig.
  destruct cert as [|cpath|b|]; try congruence; simpl.
  - destruct (ReadFile host cpath) as [cdata cerr]. rewrite Hread. reflexivity.
  - rewrite Hread. reflexivity.
Qed.

(** A failed read of the certificate file is reported when the key comes
    as bytes. *)
Lemma loadCertConfig_cert_read_failed_key_bytes w path b pfx data cause :
  ReadFile host path = (data, Some cause) ->
  exists e, loadCertConfig host w (Str path) (Bytes b) pfx = Done (None, Some e)
            /\ IOError e cause.
Proof.
  intros Hread. exists (Wrapf "ioutil.ReadFile" cause). split; [|reflexivity].
  unfold loadCertConfig. simpl. rewrite Hread. reflexivity.
Qed.

(** With both files given as paths, a successful read of the key erases
    the error of the certificate read: the pair is parsed from whatever the
    failed read handed back. *)
Lemma loadCertConfig_cert_read_error_erased w cpath kpath pfx cdata cause kdata :
  ReadFile host cpath = (cdata, Some cause) ->
  ReadFile host kpath = (kdata, None) ->
  loadCertConfig host w (Str cpath) (Str kpath) pfx = parsePair host cdata kdata.
Proof.
  intros Hc Hk. unfold loadCertConfig. simpl. rewrite Hc, Hk. reflexivity.
Qed.

End LoaderFacts.

Section Validation.

Implicit Types (cert key pfx : iface).

(** The validation looks at the PKCS#12 argument only when one of the PEM
    arguments is nil. *)
Lemma checkCertFilePath_pem_pair certFirst cert key pfx :
  cert <> Nil -> key <> Nil ->
  checkCertFilePath certFirst cert key pfx = checkCertFilePath certFirst cert key Nil.
Proof. destruct cert, key; congruence || reflexivity. Qed.

Lemma checkCertFilePath_pkcs12_alone certFirst cert key pfx :
  pfx <> Nil -> cert = Nil \/ key = Nil ->
  checkCertFilePath certFirst cert key pfx = checkCertFilePath certFirst Nil Nil pfx.
Proof.
  intros Hp [-> | ->]; destruct pfx; try congruence;
    try destruct cert; try destruct key; reflexivity.
Qed.

End Validation.

(** C1 (as the code has it).  A PKCS#12 argument passed together with PEM
    arguments is not rejected.  When both the PEM certificate and the PEM key
    are given, the PKCS#12 argument is ignored: the call does what the same
    call without it does.  When one of the two PEM arguments is nil, the other
    one is ignored: the call does what the PKCS#12-only call does. *)
Theorem C1_pkcs12_with_pem_follows_priority
    {Cert Block : Type} (host : Host Cert Block) (certFirst : bool)
    (w : Client Cert) (cert key pfx : iface) :
  pfx <> Nil ->
  (cert <> Nil -> key <> Nil ->
   AddCertFilePath host certFirst w cert key pfx
   = AddCertFilePath host certFirst w cert key Nil)
  /\ (cert = Nil \/ key = Nil ->
      AddCertFilePath host certFirst w cert key pfx
      = AddCertFilePath host certFirst w Nil Nil pfx).
Proof.
  intros Hpfx. split.
  - intros Hc Hk. unfold AddCertFilePath.
    rewrite (checkCertFilePath_pem_pair certFirst cert key pfx Hc Hk).
    destruct cert, key; congruence || reflexivity.
  - intros Hone. unfold AddCertFilePath.
    rewrite (checkCertFilePath_pkcs12_alone certFirst cert key pfx Hpfx Hone).
    destruct Hone as [-> | ->]; destruct pfx; try congruence;
      try destruct cert; try destruct key; reflexivity.
Qed.

Lemma C1_pkcs12_with_pem_follows_priority_witness :
  AddCertFilePath Sample.host true Sample.client
    (Str "apiclient_cert.pem") (Str "apiclient_key.pem") (Str "apiclient_cert.p12")
  = AddCertFilePath Sample.host true Sample.client
      (Str "apiclient_cert.pem") (Str "apiclient_key.pem") Nil.
Proof.
  apply (C1_pkcs12_with_pem_follows_priority Sample.host true Sample.client
           (Str "apiclient_cert.pem") (Str "apiclient_key.pem")
           (Str "apiclient_cert.p12")); discriminate.
Defined.

(** C1 fails as stated: with a readable PEM pair and a PKCS#12 path all
    passed at once, the check finds nothing wrong and the PEM pair is
    registered; with the key left out, the archive is registered.  Neither
    call returns an error. *)
Lemma C1_pkcs12_with_pem_is_accepted :
  checkCertFilePath true
    (Str "apiclient_cert.pem") (Str "apiclient_key.pem") (Str "apiclient_cert.p12") = None
  /\ AddCertFilePath Sample.host true Sample.client
       (Str "apiclient_cert.pem") (Str "apiclient_key.pem") (Str "apiclient_cert.p12")
     = Done ({| MchId := "1900000109";
                certificate := Some (list_byte_of_string "PEM apiclient_cert.pem",
                                     list_byte_of_string "PEM apiclient_key.pem") |},
             None)
  /\ AddCertFilePath Sample.host true Sample.client
       (Str "apiclient_cert.pem") Nil (Str "apiclient_cert.p12")
     = Done ({| MchId := "1900000109";
                certificate := Some (list_byte_of_string "PEM apiclient_cert.p12",
                                     list_byte_of_string "PEM apiclient_cert.p12") |},
             None).
Proof. repeat split; vm_compute; reflexivity. Qed.

(** C2 (where the code departs from it).  The certificate path cannot be
    read, the key path can: the read error is overwritten by the nil error
    of the second read, and the call ends on the last line of the loader with
    an error that is not built around the read error. *)
Theorem C2_cert_read_error_is_lost :
  ReadFile Sample.host "missing.pem"
  = (None, Some (Foreign "open missing.pem: no such file or directory"))
  /\ AddCertFilePath Sample.host true Sample.client
       (Str "missing.pem") (Str "apiclient_key.pem") Nil
     = Done (Sample.client, Some (New "cert files must all nil or all not nil"))
  /\ ~ IOError (New "cert files must all nil or all not nil")
         (Foreign "open missing.pem: no such file or directory").
Proof.
  split; [reflexivity|]. split; [vm_compute; reflexivity|].
  unfold IOError. discriminate.
Qed.

(** C4 (as the code has it).  With nothing cached and three nil arguments,
    the loader returns no configuration together with the error of its last
    line; [AddCertFilePath] hands that error on and leaves the client
    unchanged. *)
Theorem C4_nothing_cached_nothing_requested
    {Cert Block : Type} (host : Host Cert Block) (certFirst : bool) (w : Client Cert) :
  certificate w = None ->
  addCertConfig host w Nil Nil Nil
  = Done (None, Some (New "cert files must all nil or all not nil"))
  /\ AddCertFilePath host certFirst w Nil Nil Nil
     = Done (w, Some (New "cert files must all nil or all not nil")).
Proof.
  intros Hnone.
  assert (Hcfg : addCertConfig host w Nil Nil Nil
                 = Done (None, Some (New "cert files must all nil or all not nil"))).
  { unfold addCertConfig. simpl. rewrite Hnone. apply loadCertConfig_nothing. }
  split; [exact Hcfg|].
  unfold AddCertFilePath. rewrite Hcfg. reflexivity.
Qed.

Lemma C4_nothing_cached_nothing_requested_witness :
  addCertConfig Sample.host Sample.client Nil Nil Nil
  = Done (None, Some (New "cert files must all nil or all not nil"))
  /\ AddCertFilePath Sample.host false Sample.client Nil Nil Nil
     = Done (Sample.client, Some (New "cert files must all nil or all not nil")).
Proof.
  apply (C4_nothing_cached_nothing_requested Sample.host false Sample.client).
  reflexivity.
Defined.

(** C4 fails as stated: the call is not a return of no credential and no
    error. *)
Lemma C4_loader_returns_an_error :
  addCertConfig Sample.host Sample.client Nil Nil Nil <> Done (None, None)
  /\ AddCertFilePath Sample.host true Sample.client Nil Nil Nil
     <> Done (Sample.client, None).
Proof. split; vm_compute; discriminate. Qed.

(** C7 fails as stated: a certificate path with a nil key is exactly one PEM
    argument, yet with a PKCS#12 path next to it the call registers the
    archive and returns no error. *)
Lemma C7_lonely_pem_with_pkcs12_is_accepted :
  provided (Str "apiclient_cert.pem") = true
  /\ absent_or_empty Nil = true
  /\ AddCertFilePath Sample.host true Sample.client
       (Str "apiclient_cert.pem") Nil (Str "apiclient_cert.p12")
     = Done ({| MchId := "1900000109";
                certificate := Some (list_byte_of_string "PEM apiclient_cert.p12",
                                     list_byte_of_string "PEM apiclient_cert.p12") |},
             None).
Proof. repeat split; vm_compute; reflexivity. Qed.

(** C9.  Every configuration [addCertConfig] returns, from the cache, from a
    PEM pair or from a PKCS#12 archive, has [InsecureSkipVerify] set. *)
Theorem C9_every_config_skips_verification
    {Cert Block : Type} (host : Host Cert Block)
    (w : Client Cert) (cert key pfx : iface)
    (config : tlsConfig Cert) (err : option error) :
  addCertConfig host w cert key pfx = Done (Some config, err) ->
  InsecureSkipVerify config = true.
Proof.
  unfold addCertConfig.
  destruct (is_nil cert && is_nil key && is_nil pfx);
    [destruct (certificate w) as [crt|]|];
    try apply loadCertConfig_skips_verification.
  intros Heq. injection Heq as <- _. reflexivity.
Qed.

Lemma C9_every_config_skips_verification_witness :
  exists config,
    addCertConfig Sample.host Sample.client
      (Str "apiclient_cert.pem") (Str "apiclient_key.pem") Nil
    = Done (Some config, None)
    /\ InsecureSkipVerify config = true.
Proof.
  eexists. split; [vm_compute; reflexivity|].
  apply (C9_every_config_skips_verification Sample.host Sample.client
           (Str "apiclient_cert.pem") (Str "apiclient_key.pem") Nil _ None).
  vm_compute. reflexivity.
Defined.

(** The three ways to a configuration are all taken by some call. *)
Example addCertConfig_from_cache :
  addCertConfig Sample.host
    {| MchId := "1900000109"; certificate := Some ([], []) |} Nil Nil Nil
  = Done (Some {| Certificates := [([], [])]; InsecureSkipVerify := true |}, None).
Proof. reflexivity. Qed.

Example addCertConfig_from_pkcs12 :
  exists config,
    addCertConfig Sample.host Sample.client Nil Nil (Bytes (Some ["x"%byte]))
    = Done (Some config, None).
Proof. eexists. vm_compute. reflexivity. Qed.

(** ** The signature engine and the sandbox key exchange *)

Section SandboxFacts.

Variable codec : Codec.
Variable remote : Remote.

Lemma selectHash_hmac apiKey :
  selectHash apiKey SignType_HMAC_SHA256 = hmac_New_sha256 (list_byte_of_string apiKey).
Proof. reflexivity. Qed.

Lemma selectHash_other apiKey signType :
  signType <> SignType_HMAC_SHA256 -> selectHash apiKey signType = md5_New.
Proof.
  intros Hne. unfold selectHash.
  destruct (String.eqb_spec signType SignType_HMAC_SHA256); [contradiction|reflexivity].
Qed.

(** A failed [xml.Marshal] becomes the empty body. *)
Lemma generateXml_failed bm bs cause :
  xml_Marshal codec bm = (bs, Some cause) -> generateXml codec bm = NULL.
Proof. intros H. unfold generateXml. rewrite H. reflexivity. Qed.

(** One run of [getSanBoxSignKey]: one request is posted, and the result
    is read off the answer to it. *)
Lemma getSanBoxSignKey_run mchId nonceStr sign σ :
  getSanBoxSignKey codec remote mchId nonceStr sign σ
  = (let body := generateXml codec (keyRequest mchId nonceStr sign) in
     let answer := EndStruct remote (posted σ) (sandboxGetSignKey remote) body in
     (match answer.2 with
      | e :: _ => (NULL, Some e)
      | [] => if String.eqb (ReturnCode answer.1) "FAIL"
              then (NULL, Some (New (ReturnMsg answer.1)))
              else (SandboxSignkey answer.1, None)
      end,
      {| posted := posted σ ++ [(sandboxGetSignKey remote, body)];
         drawn := drawn σ |})).
Proof.
  unfold getSanBoxSignKey, bind, Post, keyRequest, ret. cbv zeta.
  destruct (EndStruct remote _ _ _) as [keyResponse [|e errs]]; simpl; [|reflexivity].
  destruct (String.eqb (ReturnCode keyResponse) "FAIL"); reflexivity.
Qed.

End SandboxFacts.

(** C3 (as the code has it).  HMAC-SHA256 is used when the sign type is the
    HMAC-SHA256 constant; for every other sign type, MD5 included, the
    signature is the MD5 one. *)
Theorem C3_md5_unless_hmac_selected
    (codec : Codec) (apiKey signType : string) (bm : BodyMap) :
  let data := list_byte_of_string (EncodeWeChatSignParams codec bm apiKey) in
  (signType = SignType_HMAC_SHA256 ->
   selectHash apiKey signType = hmac_New_sha256 (list_byte_of_string apiKey)
   /\ getReleaseSign codec apiKey signType bm
      = ToUpper (EncodeToString
                   (hmac_sha256_Sum codec (list_byte_of_string apiKey) data)))
  /\ (signType <> SignType_HMAC_SHA256 ->
      selectHash apiKey signType = md5_New
      /\ getReleaseSign codec apiKey signType bm
         = ToUpper (EncodeToString (md5_Sum codec data))).
Proof.
  intros data. split.
  - intros ->. split; reflexivity.
  - intros Hne. unfold getReleaseSign.
    rewrite (selectHash_other apiKey signType Hne). split; reflexivity.
Qed.

Lemma C3_md5_unless_hmac_selected_witness :
  selectHash "192006250b4c09247ec02edce69f6a2d" "RSA" = md5_New
  /\ getReleaseSign (Sample.codec false) "192006250b4c09247ec02edce69f6a2d" "RSA"
       (Set_ "mch_id" "1900000109" ∅)
     = ToUpper (EncodeToString
                  (md5_Sum (Sample.codec false)
                     (list_byte_of_string
                        (EncodeWeChatSignParams (Sample.codec false)
                           (Set_ "mch_id" "1900000109" ∅)
                           "192006250b4c09247ec02edce69f6a2d")))).
Proof.
  apply (C3_md5_unless_hmac_selected (Sample.codec false)
           "192006250b4c09247ec02edce69f6a2d" "RSA" (Set_ "mch_id" "1900000109" ∅)).
  discriminate.
Defined.

(** C3 fails as stated: a sign type that is neither of the two constants is
    accepted and signed with MD5. *)
Lemma C3_unknown_sign_type_falls_back_to_md5 :
  "SHA1" <> SignType_MD5
  /\ "SHA1" <> SignType_HMAC_SHA256
  /\ selectHash "192006250b4c09247ec02edce69f6a2d" "SHA1" = md5_New
  /\ getReleaseSign (Sample.codec false) "192006250b4c09247ec02edce69f6a2d" "SHA1"
       (Set_ "mch_id" "1900000109" ∅)
     = getReleaseSign (Sample.codec false) "192006250b4c09247ec02edce69f6a2d"
         SignType_MD5 (Set_ "mch_id" "1900000109" ∅).
Proof. repeat split; try discriminate; vm_compute; reflexivity. Qed.

(** C5.  One call of [getSanBoxSignKey] posts one request.  An answer FAIL
    gives an error made of the answer's message; any other answer gives the
    answer's key; errors of the transport give the first of them. *)
Theorem C5_key_exchange_outcomes
    (codec : Codec) (remote : Remote) (mchId nonceStr sign : string) (σ : World) :
  let body := generateXml codec (keyRequest mchId nonceStr sign) in
  let answer := EndStruct remote (posted σ) (sandboxGetSignKey remote) body in
  let run := getSanBoxSignKey codec remote mchId nonceStr sign σ in
  (answer.2 = [] -> ReturnCode answer.1 = "FAIL" ->
   run.1 = (NULL, Some (New (ReturnMsg answer.1))))
  /\ (answer.2 = [] -> ReturnCode answer.1 <> "FAIL" ->
      run.1 = (SandboxSignkey answer.1, None))
  /\ (forall e rest, answer.2 = e :: rest -> run.1 = (NULL, Some e))
  /\ posted run.2 = (posted σ ++ [(sandboxGetSignKey remote, body)])%list.
Proof.
  intros body answer run. subst run. rewrite getSanBoxSignKey_run. cbv zeta.
  fold body. fold answer. simpl.
  repeat split.
  - intros -> ->. reflexivity.
  - intros -> Hne.
    destruct (String.eqb_spec (ReturnCode answer.1) "FAIL"); [contradiction|reflexivity].
  - intros e rest ->. reflexivity.
Qed.

Lemma C5_key_exchange_outcomes_witness :
  (getSanBoxSignKey (Sample.codec false) Sample.remoteFail
     "1900000109" "5K8264ILTKCH16CQ2502SI8ZNMTM67VS" "SIGN" Sample.world0).1
  = (NULL, Some (New "invalid mch_id")).
Proof.
  apply (C5_key_exchange_outcomes (Sample.codec false) Sample.remoteFail
           "1900000109" "5K8264ILTKCH16CQ2502SI8ZNMTM67VS" "SIGN" Sample.world0);
    reflexivity.
Defined.

(** The other two outcomes on the sample providers. *)
Example getSanBoxSignKey_returns_key :
  getSanBoxSignKey (Sample.codec false) Sample.remoteOk "1900000109" "nonce" "SIGN"
    Sample.world0
  = (("sandbox-key", None),
     {| posted := [(Sample.url, "<xml>SIGN</xml>")]; drawn := 0 |}).
Proof. vm_compute. reflexivity. Qed.

Example getSanBoxSignKey_transport_error :
  getSanBoxSignKey (Sample.codec false) Sample.remoteDown "1900000109" "nonce" "SIGN"
    Sample.world0
  = ((NULL, Some (Foreign "dial tcp: i/o timeout")),
     {| posted := [(Sample.url, "<xml>SIGN</xml>")]; drawn := 0 |}).
Proof. vm_compute. reflexivity. Qed.

(** C10.  Without transport errors, the call fails exactly when the status
    is the string FAIL; with any other status, the empty one included, it
    returns the key of the answer, empty or not. *)
Theorem C10_only_FAIL_is_a_failure
    (codec : Codec) (remote : Remote) (mchId nonceStr sign : string) (σ : World) :
  let body := generateXml codec (keyRequest mchId nonceStr sign) in
  let answer := EndStruct remote (posted σ) (sandboxGetSignKey remote) body in
  let run := getSanBoxSignKey codec remote mchId nonceStr sign σ in
  answer.2 = [] ->
  (ReturnCode answer.1 = "FAIL" <-> exists e, run.1.2 = Some e)
  /\ (ReturnCode answer.1 <> "FAIL" -> run.1 = (SandboxSignkey answer.1, None)).
Proof.
  intros body answer run Herrs. subst run. rewrite getSanBoxSignKey_run. cbv zeta.
  fold body. fold answer. simpl. rewrite Herrs.
  destruct (String.eqb_spec (ReturnCode answer.1) "FAIL") as [Heq|Hne]; simpl.
  - split; [|contradiction]. split; eauto.
  - split; [|reflexivity]. split; [contradiction|]. intros [e He]. discriminate.
Qed.

Lemma C10_only_FAIL_is_a_failure_witness :
  (getSanBoxSignKey (Sample.codec false) Sample.remoteBlank
     "1900000109" "5K8264ILTKCH16CQ2502SI8ZNMTM67VS" "SIGN" Sample.world0).1
  = ("", None).
Proof.
  apply (C10_only_FAIL_is_a_failure (Sample.codec false) Sample.remoteBlank
           "1900000109" "5K8264ILTKCH16CQ2502SI8ZNMTM67VS" "SIGN" Sample.world0);
    [reflexivity | discriminate].
Defined.

(** C6.  The request [getSignBoxSign] posts carries the release signature of
    the merchant id and the nonce under the real API key, and that signature
    is the MD5 one; the function takes no sign type that could change it. *)
Theorem C6_sandbox_request_is_signed_with_md5
    (codec : Codec) (remote : Remote) (mchId apiKey : string) (bm : BodyMap)
    (σ : World) :
  let nonceStr := GetRandomString remote (drawn σ) 32 in
  let params := Set_ "nonce_str" nonceStr (Set_ "mch_id" mchId ∅) in
  let sign := ToUpper (EncodeToString
                         (md5_Sum codec
                            (list_byte_of_string
                               (EncodeWeChatSignParams codec params apiKey)))) in
  getReleaseSign codec apiKey SignType_MD5 params = sign
  /\ posted (getSignBoxSign codec remote mchId apiKey bm σ).2
     = (posted σ
        ++ [(sandboxGetSignKey remote,
             generateXml codec (keyRequest mchId nonceStr sign))])%list.
Proof.
  intros nonceStr params sign. split; [reflexivity|].
  unfold getSignBoxSign, bind, randomString, getSanBoxKey.
  rewrite getSanBoxSignKey_run. cbv zeta. simpl posted. simpl drawn.
  fold nonceStr. fold params.
  change (getReleaseSign codec apiKey SignType_MD5 params) with sign.
  destruct (EndStruct remote _ _ _) as [keyResponse [|e errs]]; simpl; [|reflexivity].
  destruct (String.eqb (ReturnCode keyResponse) "FAIL"); reflexivity.
Qed.

Section ReturnedErrors.

Context {Cert Block : Type}.
Variable host : Host Cert Block.
Implicit Types (w : Client Cert) (cert key pfx : iface).

(** A failed read of the PKCS#12 file is returned, wrapped. *)
Lemma addCertConfig_pkcs12_read_failed w cert key path data cause :
  cert = Nil \/ key = Nil ->
  ReadFile host path = (data, Some cause) ->
  addCertConfig host w cert key (Str path)
  = Done (None, Some (Wrapf "ioutil.ReadFile" cause)).
Proof.
  intros Hone Hread. unfold addCertConfig, loadCertConfig.
  destruct Hone as [-> | ->]; try destruct cert; try destruct key; simpl;
    rewrite Hread; reflexivity.
Qed.

(** A failed conversion of the archive is returned, wrapped. *)
Lemma addCertConfig_pkcs12_conversion_failed w cert key pfxData blocks cause :
  cert = Nil \/ key = Nil ->
  ToPEM host pfxData (MchId w) = (blocks, Some cause) ->
  addCertConfig host w cert key (Bytes pfxData)
  = Done (None, Some (Wrapf "pkcs12.ToPEM" cause)).
Proof.
  intros Hone Hpem. unfold addCertConfig, loadCertConfig.
  destruct Hone as [-> | ->]; try destruct cert; try destruct key; simpl;
    rewrite Hpem; reflexivity.
Qed.

(** A pair of PEM byte inputs that does not parse gives the parser's error,
    wrapped. *)
Lemma addCertConfig_pair_rejected w certPem keyPem pfx crt cause :
  X509KeyPair host (Some certPem) (Some keyPem) = (crt, Some cause) ->
  addCertConfig host w (Bytes (Some certPem)) (Bytes (Some keyPem)) pfx
  = Done (None, Some (Wrapf "tls.LoadX509KeyPair" cause)).
Proof.
  intros Hpair. unfold addCertConfig, loadCertConfig, parsePair. simpl.
  rewrite Hpair. reflexivity.
Qed.

(** A failed read of the key file is returned, wrapped. *)
Lemma addCertConfig_key_read_failed w cert path pfx data cause :
  cert <> Nil -> cert <> Other ->
  ReadFile host path = (data, Some cause) ->
  addCertConfig host w cert (Str path) pfx
  = Done (None, Some (Wrapf "ioutil.ReadFile" cause)).
Proof.
  intros Hnil Hother Hread.
  destruct (loadCertConfig_key_read_failed host w cert path pfx data cause
              Hnil Hother Hread) as [e [Hrun ->]].
  unfold addCertConfig. destruct cert; try congruence; exact Hrun.
Qed.

End ReturnedErrors.

(** C8 (where the code departs from it).  The read of the certificate file
    fails and the key file is read without error: the read error is dropped,
    and the error the caller gets neither is it nor wraps it.  With the same
    failed read and the key passed as bytes, the caller does get the read
    error, wrapped. *)
Theorem C8_read_failure_is_discarded :
  let cause := Foreign "open missing.pem: no such file or directory" in
  ReadFile Sample.host "missing.pem" = (None, Some cause)
  /\ (exists e,
         AddCertFilePath Sample.host true Sample.client
           (Str "missing.pem") (Str "apiclient_key.pem") Nil
         = Done (Sample.client, Some e)
         /\ Is e cause = false)
  /\ (exists e,
         AddCertFilePath Sample.host true Sample.client
           (Str "missing.pem") (Bytes (Some (list_byte_of_string "PEM key"))) Nil
         = Done (Sample.client, Some e)
         /\ Is e cause = true).
Proof.
  cbv zeta. split; [reflexivity|]. split.
  - exists (New "cert files must all nil or all not nil").
    split; vm_compute; reflexivity.
  - exists (Wrapf "ioutil.ReadFile"
              (Foreign "open missing.pem: no such file or directory")).
    split; vm_compute; reflexivity.
Qed.

(** When [xml.Marshal] fails, [generateXml] hands back the empty body: the
    request is posted with it and the caller gets the key of the answer and
    no error. *)
Example generateXml_failure_posts_empty_body :
  xml_Marshal (Sample.codec true) (keyRequest "1900000109" "nonce" "SIGN")
  = ([], Some (Foreign "xml: unsupported type"))
  /\ getSanBoxSignKey (Sample.codec true) Sample.remoteOk
       "1900000109" "nonce" "SIGN" Sample.world0
     = (("sandbox-key", None),
        {| posted := [(Sample.url, "")]; drawn := 0 |}).
Proof. split; vm_compute; reflexivity. Qed.

(** * Further properties of the loader *)

Ltac break_match :=
  repeat match goal with
         | |- context [match ?x with _ => _ end] => destruct x eqn:?
         end.

Section LoaderShape.

Context {Cert Block : Type}.
Variable host : Host Cert Block.
Implicit Types (w : Client Cert) (cert key pfx : iface).

Lemma parsePair_shape certPem keyPem :
  (exists e, parsePair host certPem keyPem = Done (None, Some e))
  \/ (exists crt, X509KeyPair host certPem keyPem = (crt, None)
                  /\ parsePair host certPem keyPem
                     = Done (Some {| Certificates := [crt];
                                     InsecureSkipVerify := true |}, None)).
Proof.
  unfold parsePair.
  destruct (negb (is_nil_slice certPem) && negb (is_nil_slice keyPem)); [|eauto].
  destruct (X509KeyPair host certPem keyPem) as [crt [e|]]; eauto.
Qed.

Lemma loadCertConfig_shape w cert key pfx config err :
  loadCertConfig host w cert key pfx = Done (config, err) ->
  (config = None /\ exists e, err = Some e)
  \/ (err = None
      /\ exists crt, config = Some {| Certificates := [crt];
                                      InsecureSkipVerify := true |}).
Proof.
  assert (Hpair : forall c k,
             parsePair host c k = Done (config, err) ->
             (config = None /\ exists e, err = Some e)
             \/ (err = None
                 /\ exists crt, config = Some {| Certificates := [crt];
                                                 InsecureSkipVerify := true |})).
  { intros c k Heq.
    destruct (parsePair_shape c k) as [[e He] | [crt [_ He]]];
      rewrite He in Heq; injection Heq as <- <-; eauto. }
  unfold loadCertConfig, loadPem.
  destruct (negb (is_nil cert) && negb (is_nil key)).
  - destruct cert as [|cpath|cb|]; try discriminate;
      destruct key as [|kpath|kb|]; try discriminate;
      try destruct (ReadFile host cpath) as [cdata [ce|]];
      try destruct (ReadFile host kpath) as [kdata [ke|]];
      simpl; try apply Hpair; intros Heq; try discriminate;
      injection Heq as <- <-; eauto.
  - destruct (negb (is_nil pfx)); [|apply Hpair].
    destruct pfx as [|path|b|]; try discriminate.
    + destruct (ReadFile host path) as [pfxData [e|]].
      * intros Heq; injection Heq as <- <-; eauto.
      * destruct (ToPEM host pfxData (MchId w)) as [blocks [e|]]; [|apply Hpair].
        intros Heq; injection Heq as <- <-; eauto.
    + destruct (ToPEM host b (MchId w)) as [blocks [e|]]; [|apply Hpair].
      intros Heq; injection Heq as <- <-; eauto.
Qed.

(** After a passed check, no type assertion of the loader fails. *)
Lemma checked_arguments_load certFirst w cert key pfx :
  checkCertFilePath certFirst cert key pfx = None ->
  exists r, addCertConfig host w cert key pfx = Done r.
Proof.
  intros Hchk.
  unfold addCertConfig, loadCertConfig, loadPem, parsePair.
  destruct cert as [|cpath|cb|], key as [|kpath|kb|], pfx as [|ppath|pb|], certFirst;
    unfold checkCertFilePath, checkFiles, checkVar in Hchk;
    simpl in Hchk |- *;
    repeat match type of Hchk with
           | context [if ?c then _ else _] => destruct c; simpl in Hchk
           end;
    try discriminate; break_match; eauto.
Qed.

Lemma addCertConfig_shape w cert key pfx config err :
  addCertConfig host w cert key pfx = Done (config, err) ->
  (config = None /\ exists e, err = Some e)
  \/ (err = None
      /\ exists crt, config = Some {| Certificates := [crt];
                                      InsecureSkipVerify := true |}).
Proof.
  unfold addCertConfig.
  destruct (is_nil cert && is_nil key && is_nil pfx);
    [destruct (certificate w) as [crt|]|];
    try apply loadCertConfig_shape.
  intros Heq. injection Heq as <- <-. eauto.
Qed.

End LoaderShape.

(** X1.  [addCertConfig] returns either an error and no configuration, or a
    configuration and no error; a returned configuration holds exactly one
    certificate. *)
Theorem addCertConfig_config_xor_error
    {Cert Block : Type} (host : Host Cert Block)
    (w : Client Cert) (cert key pfx : iface)
    (config : option (tlsConfig Cert)) (err : option error) :
  addCertConfig host w cert key pfx = Done (config, err) ->
  (config = None /\ exists e, err = Some e)
  \/ (err = None
      /\ exists crt, config = Some {| Certificates := [crt];
                                      InsecureSkipVerify := true |}).
Proof. apply addCertConfig_shape. Qed.

Lemma addCertConfig_config_xor_error_witness :
  exists config err,
    addCertConfig Sample.host Sample.client
      (Str "apiclient_cert.pem") (Str "apiclient_key.pem") Nil
    = Done (config, err)
    /\ ((config = None /\ exists e, err = Some e)
        \/ (err = None
            /\ exists crt, config = Some {| Certificates := [crt];
                                            InsecureSkipVerify := true |})).
Proof.
  eexists _, _. split; [vm_compute; reflexivity|].
  apply (addCertConfig_config_xor_error Sample.host Sample.client
           (Str "apiclient_cert.pem") (Str "apiclient_key.pem") Nil).
  vm_compute. reflexivity.
Defined.

(** X2.  [AddCertFilePath] does not panic, whatever the dynamic types of its
    arguments: the check rejects what the type assertions of the loader would
    fail on.  A direct call of [addCertConfig] has no such guard. *)
Theorem AddCertFilePath_never_panics
    {Cert Block : Type} (host : Host Cert Block) (certFirst : bool)
    (w : Client Cert) (cert key pfx : iface) :
  (exists w' err, AddCertFilePath host certFirst w cert key pfx = Done (w', err))
  /\ exists reason, addCertConfig host w Other (Str "apiclient_key.pem") Nil
                    = Panic reason.
Proof.
  split; [|eexists; reflexivity].
  unfold AddCertFilePath.
  destruct (checkCertFilePath certFirst cert key pfx) as [e|] eqn:Hchk; [eauto|].
  destruct (checked_arguments_load host certFirst w cert key pfx Hchk)
    as [[config err] Hrun].
  rewrite Hrun.
  destruct (addCertConfig_shape host w cert key pfx config err Hrun) as
    [[-> [e ->]] | [-> [crt ->]]]; simpl; eauto.
Qed.

Section RegistrationFacts.

Context {Cert Block : Type}.
Variable host : Host Cert Block.
Implicit Types (w : Client Cert) (cert key pfx : iface).

(** What a returning [AddCertFilePath] has done. *)
Lemma AddCertFilePath_outcome certFirst w cert key pfx w' err :
  AddCertFilePath host certFirst w cert key pfx = Done (w', err) ->
  ((exists e, err = Some e) /\ w' = w)
  \/ (err = None
      /\ checkCertFilePath certFirst cert key pfx = None
      /\ exists crt,
          addCertConfig host w cert key pfx
          = Done (Some {| Certificates := [crt]; InsecureSkipVerify := true |}, None)
          /\ w' = withCache w (Some crt)).
Proof.
  unfold AddCertFilePath.
  destruct (checkCertFilePath certFirst cert key pfx) as [e|] eqn:Hchk.
  { intros Heq. injection Heq as <- <-. eauto. }
  destruct (addCertConfig host w cert key pfx) as [[config e]|r] eqn:Hrun;
    [|discriminate].
  destruct (addCertConfig_shape host w cert key pfx config e Hrun) as
    [[-> [e' ->]] | [-> [crt ->]]]; simpl; intros Heq; injection Heq as <- <-.
  - eauto.
  - right. split; [reflexivity|]. split; [reflexivity|]. exists crt. split; reflexivity.
Qed.

(** The no-argument call on a client with a cached certificate. *)
Lemma AddCertFilePath_reuse certFirst w crt :
  certificate w = Some crt ->
  addCertConfig host w Nil Nil Nil
  = Done (Some {| Certificates := [crt]; InsecureSkipVerify := true |}, None)
  /\ AddCertFilePath host certFirst w Nil Nil Nil = Done (w, None).
Proof.
  intros Hc. unfold AddCertFilePath, addCertConfig. simpl. rewrite Hc. simpl.
  split; [reflexivity|]. destruct w as [mch cache]. simpl in Hc. subst cache.
  reflexivity.
Qed.

(** When an argument is passed, the cache plays no part. *)
Lemma addCertConfig_fresh w cert key pfx cache :
  is_nil cert && is_nil key && is_nil pfx = false ->
  addCertConfig host (withCache w cache) cert key pfx
  = addCertConfig host w cert key pfx.
Proof. intros Hargs. unfold addCertConfig. rewrite Hargs. reflexivity. Qed.

End RegistrationFacts.

(** X3.  A call of [AddCertFilePath] that returns an error leaves the client
    as it was; a call that returns none has changed the cached certificate
    and nothing else, and the client holds a certificate afterwards. *)
Theorem AddCertFilePath_updates_only_the_cache
    {Cert Block : Type} (host : Host Cert Block) (certFirst : bool)
    (w w' : Client Cert) (cert key pfx : iface) (err : option error) :
  AddCertFilePath host certFirst w cert key pfx = Done (w', err) ->
  (forall e, err = Some e -> w' = w)
  /\ (err = None ->
      MchId w' = MchId w /\ exists crt, certificate w' = Some crt).
Proof.
  intros Hrun.
  destruct (AddCertFilePath_outcome host certFirst w cert key pfx w' err Hrun)
    as [[[e ->] ->] | [-> [_ [crt [_ ->]]]]].
  - split; [reflexivity | discriminate].
  - split; [discriminate|]. intros _. simpl. eauto.
Qed.

Lemma AddCertFilePath_updates_only_the_cache_witness :
  MchId (withCache Sample.client
           (Some (list_byte_of_string "PEM apiclient_cert.pem",
                  list_byte_of_string "PEM apiclient_key.pem")))
  = MchId Sample.client
  /\ exists crt,
      certificate (withCache Sample.client
                     (Some (list_byte_of_string "PEM apiclient_cert.pem",
                            list_byte_of_string "PEM apiclient_key.pem")))
      = Some crt.
Proof.
  apply (AddCertFilePath_updates_only_the_cache Sample.host true Sample.client _
           (Str "apiclient_cert.pem") (Str "apiclient_key.pem") Nil None);
    [vm_compute|]; reflexivity.
Defined.

(** X4.  After any registration that returned no error, the no-argument call
    of the loader returns the certificate just registered, in a
    configuration of its own, and the no-argument registration changes
    nothing and returns no error. *)
Theorem registered_certificate_is_reused
    {Cert Block : Type} (host : Host Cert Block) (certFirst again : bool)
    (w w' : Client Cert) (cert key pfx : iface) :
  AddCertFilePath host certFirst w cert key pfx = Done (w', None) ->
  exists crt,
    addCertConfig host w cert key pfx
    = Done (Some {| Certificates := [crt]; InsecureSkipVerify := true |}, None)
    /\ addCertConfig host w' Nil Nil Nil
       = Done (Some {| Certificates := [crt]; InsecureSkipVerify := true |}, None)
    /\ AddCertFilePath host again w' Nil Nil Nil = Done (w', None).
Proof.
  intros Hrun.
  destruct (AddCertFilePath_outcome host certFirst w cert key pfx w' None Hrun)
    as [[[e He] _] | [_ [_ [crt [Hcfg ->]]]]]; [discriminate|].
  exists crt. split; [exact Hcfg|].
  apply (AddCertFilePath_reuse host again (withCache w (Some crt)) crt). reflexivity.
Qed.

Lemma registered_certificate_is_reused_witness :
  exists crt : Sample.Cert,
    addCertConfig Sample.host Sample.client Nil Nil (Str "apiclient_cert.p12")
    = Done (Some {| Certificates := [crt]; InsecureSkipVerify := true |}, None)
    /\ addCertConfig Sample.host
         (withCache Sample.client
            (Some (list_byte_of_string "PEM apiclient_cert.p12",
                   list_byte_of_string "PEM apiclient_cert.p12"))) Nil Nil Nil
       = Done (Some {| Certificates := [crt]; InsecureSkipVerify := true |}, None)
    /\ AddCertFilePath Sample.host false
         (withCache Sample.client
            (Some (list_byte_of_string "PEM apiclient_cert.p12",
                   list_byte_of_string "PEM apiclient_cert.p12"))) Nil Nil Nil
       = Done (withCache Sample.client
                 (Some (list_byte_of_string "PEM apiclient_cert.p12",
                        list_byte_of_string "PEM apiclient_cert.p12")), None).
Proof.
  apply (registered_certificate_is_reused Sample.host true false Sample.client _
           Nil Nil (Str "apiclient_cert.p12")).
  vm_compute. reflexivity.
Defined.

(** X5.  When at least one argument is not nil, the loader does not look at
    the cache: a cached certificate neither replaces nor rescues a failed
    load. *)
Theorem addCertConfig_ignores_cache_when_given_arguments
    {Cert Block : Type} (host : Host Cert Block)
    (w : Client Cert) (cert key pfx : iface) (cache : option Cert) :
  cert <> Nil \/ key <> Nil \/ pfx <> Nil ->
  addCertConfig host (withCache w cache) cert key pfx
  = addCertConfig host w cert key pfx.
Proof.
  intros Hargs. apply addCertConfig_fresh.
  destruct cert, key, pfx; try reflexivity.
  destruct Hargs as [H | [H | H]]; congruence.
Qed.

Lemma addCertConfig_ignores_cache_when_given_arguments_witness :
  addCertConfig Sample.host (withCache Sample.client (Some ([], [])))
    (Str "missing.pem") (Str "missing.pem") Nil
  = addCertConfig Sample.host Sample.client (Str "missing.pem") (Str "missing.pem") Nil.
Proof.
  apply (addCertConfig_ignores_cache_when_given_arguments Sample.host Sample.client
           (Str "missing.pem") (Str "missing.pem") Nil (Some ([], []))).
  left. discriminate.
Defined.

(** ** The validation *)

Section ValidationFacts.

Implicit Types (cert key pfx : iface).

Lemma checkVar_usable varName v : checkVar varName v = None <-> usable v = true.
Proof.
  destruct v as [|s|b|]; simpl; try (split; discriminate).
  - destruct (String.eqb s NULL); simpl; split; congruence.
  - destruct (Nat.eqb (len b) 0); simpl; split; congruence.
Qed.

Lemma usable_not_nil v : usable v = true -> is_nil v = false.
Proof. destruct v; simpl; congruence. Qed.

(** The loop over the two PEM entries passes when both entries pass. *)
Lemma checkFiles_pair (certFirst : bool) cert key :
  checkFiles
    (if certFirst
     then [("certFilePath", cert); ("keyFilePath", key)]
     else [("keyFilePath", key); ("certFilePath", cert)]) = None
  <-> usable cert = true /\ usable key = true.
Proof.
  rewrite <- (checkVar_usable "certFilePath" cert), <- (checkVar_usable "keyFilePath" key).
  destruct certFirst; simpl;
    destruct (checkVar "certFilePath" cert), (checkVar "keyFilePath" key);
    split; try tauto; try discriminate; intros [? ?]; discriminate.
Qed.

Lemma checkCertFilePath_accepts certFirst cert key pfx :
  checkCertFilePath certFirst cert key pfx = None
  <-> (cert = Nil /\ key = Nil /\ pfx = Nil)
      \/ (usable cert = true /\ usable key = true)
      \/ ((cert = Nil \/ key = Nil) /\ usable pfx = true).
Proof.
  unfold checkCertFilePath.
  destruct (is_nil cert && is_nil key && is_nil pfx) eqn:Hall.
  { destruct cert, key, pfx; try discriminate. tauto. }
  destruct (negb (is_nil cert) && negb (is_nil key)) eqn:Hpem.
  { rewrite checkFiles_pair. split; [tauto|].
    intros [[-> [-> _]] | [H | [[-> | ->] _]]]; try discriminate; try exact H.
    destruct cert; discriminate. }
  assert (Hone : cert = Nil \/ key = Nil).
  { destruct cert; [tauto|..]; destruct key; try tauto; discriminate. }
  assert (Hpair : ~ (usable cert = true /\ usable key = true)).
  { intros [Hc Hk]. apply usable_not_nil in Hc, Hk. rewrite Hc, Hk in Hpem.
    discriminate. }
  destruct (negb (is_nil pfx)) eqn:Hpfx.
  - transitivity (usable pfx = true).
    + destruct pfx as [|s|b|]; simpl; try (split; discriminate).
      * destruct (String.eqb s NULL); simpl; split; congruence.
      * destruct (Nat.eqb (len b) 0); simpl; split; congruence.
    + split; [tauto|]. intros [[_ [_ ->]] | [H | [_ H]]]; try discriminate; tauto.
  - split; [discriminate|].
    intros [[-> [-> ->]] | [H | [_ H]]]; try discriminate; try tauto.
    destruct pfx; discriminate.
Qed.

End ValidationFacts.

Lemma usable_present (v : iface) : usable v = true -> absent_or_empty v = false.
Proof.
  destruct v as [|s|b|]; simpl; try congruence.
  - destruct (String.eqb s NULL); simpl; congruence.
  - destruct (Nat.eqb (len b) 0); simpl; congruence.
Qed.

(** With one PEM argument nil, the call is the PKCS#12-only call. *)
Lemma AddCertFilePath_pkcs12_takes_over
    {Cert Block : Type} (host : Host Cert Block) (certFirst : bool)
    (w : Client Cert) (cert key pfx : iface) :
  pfx <> Nil -> cert = Nil \/ key = Nil ->
  AddCertFilePath host certFirst w cert key pfx
  = AddCertFilePath host certFirst w Nil Nil pfx.
Proof.
  intros Hpfx Hone. unfold AddCertFilePath.
  rewrite (checkCertFilePath_pkcs12_alone certFirst cert key pfx Hpfx Hone).
  destruct Hone as [-> | ->]; destruct pfx; try congruence;
    try destruct cert; try destruct key; reflexivity.
Qed.

(** C7 (as the code has it).  One PEM argument is given and the other is nil
    or empty.  Registration fails with a [ConfigurationError] and leaves the
    client unchanged, unless the missing PEM argument is nil and the PKCS#12
    argument is a non-empty string or byte slice; in that case the check
    passes and the call is handled as a PKCS#12 registration: it does what the
    PKCS#12-only call does. *)
Theorem C7_lonely_pem_rejected_unless_pkcs12_takes_over
    {Cert Block : Type} (host : Host Cert Block) (certFirst : bool)
    (w : Client Cert) (cert key pfx : iface) :
  (provided cert = true /\ absent_or_empty key = true)
  \/ (absent_or_empty cert = true /\ provided key = true) ->
  (usable pfx = false \/ (cert <> Nil /\ key <> Nil) ->
   exists e, AddCertFilePath host certFirst w cert key pfx = Done (w, Some e)
             /\ ConfigurationError e = true)
  /\ (usable pfx = true -> cert = Nil \/ key = Nil ->
      checkCertFilePath certFirst cert key pfx = None
      /\ AddCertFilePath host certFirst w cert key pfx
         = AddCertFilePath host certFirst w Nil Nil pfx).
Proof.
  unfold provided. intros Hone. split.
  - intros Hpfx.
    destruct (checkCertFilePath certFirst cert key pfx) as [e|] eqn:He.
    + exists e. split.
      * apply AddCertFilePath_check_failed, He.
      * apply (checkCertFilePath_is_configuration certFirst cert key pfx), He.
    + exfalso. apply checkCertFilePath_accepts in He.
      destruct He as [[-> [-> _]] | [[Hc Hk] | [Hnil Hu]]].
      * destruct Hone as [[H _] | [_ H]]; discriminate.
      * apply usable_present in Hc, Hk.
        destruct Hone as [[_ H] | [H _]]; congruence.
      * destruct Hpfx as [H | [Hc Hk]]; [congruence|].
        destruct Hnil; contradiction.
  - intros Hu Hnil. split.
    + apply checkCertFilePath_accepts. right. right. split; assumption.
    + apply AddCertFilePath_pkcs12_takes_over; [|exact Hnil].
      intros ->. discriminate.
Qed.

Lemma C7_lonely_pem_rejected_unless_pkcs12_takes_over_witness :
  (exists e, AddCertFilePath Sample.host true Sample.client
               (Str "apiclient_cert.pem") Nil (Str "")
             = Done (Sample.client, Some e)
             /\ ConfigurationError e = true)
  /\ AddCertFilePath Sample.host true Sample.client
       (Str "apiclient_cert.pem") Nil (Str "apiclient_cert.p12")
     = AddCertFilePath Sample.host true Sample.client
         Nil Nil (Str "apiclient_cert.p12").
Proof.
  split.
  - apply (C7_lonely_pem_rejected_unless_pkcs12_takes_over Sample.host true
             Sample.client (Str "apiclient_cert.pem") Nil (Str "")).
    + left. split; reflexivity.
    + left. reflexivity.
  - apply (C7_lonely_pem_rejected_unless_pkcs12_takes_over Sample.host true
             Sample.client (Str "apiclient_cert.pem") Nil (Str "apiclient_cert.p12")).
    + left. split; reflexivity.
    + reflexivity.
    + right. reflexivity.
Defined.

(** X6.  [checkCertFilePath] lets through exactly three kinds of arguments:
    three nils; a PEM certificate and a PEM key that are both a non-empty
    string or a non-empty byte slice (whatever the PKCS#12 argument is); a nil
    PEM certificate or key together with a PKCS#12 argument that is a
    non-empty string or byte slice. *)
Theorem checkCertFilePath_accepts_exactly
    (certFirst : bool) (cert key pfx : iface) :
  checkCertFilePath certFirst cert key pfx = None
  <-> (cert = Nil /\ key = Nil /\ pfx = Nil)
      \/ (usable cert = true /\ usable key = true)
      \/ ((cert = Nil \/ key = Nil) /\ usable pfx = true).
Proof. apply checkCertFilePath_accepts. Qed.

(** X7.  The order in which the map of the two PEM entries is visited never
    decides whether the check passes, and every error of the check is a
    [ConfigurationError]; the order changes the returned error only when both
    PEM arguments are at fault. *)
Theorem checkCertFilePath_map_order
    (cert key pfx : iface) :
  (checkCertFilePath true cert key pfx = None
   <-> checkCertFilePath false cert key pfx = None)
  /\ (forall certFirst e,
         checkCertFilePath certFirst cert key pfx = Some e ->
         ConfigurationError e = true)
  /\ (checkCertFilePath true cert key pfx <> checkCertFilePath false cert key pfx ->
      cert <> Nil /\ key <> Nil /\ usable cert = false /\ usable key = false).
Proof.
  split; [|split].
  - rewrite !checkCertFilePath_accepts. tauto.
  - intros certFirst e. apply checkCertFilePath_is_configuration.
  - unfold checkCertFilePath.
    destruct (is_nil cert && is_nil key && is_nil pfx); [congruence|].
    destruct (negb (is_nil cert) && negb (is_nil key)) eqn:Hpem; [|congruence].
    simpl.
    destruct (checkVar "certFilePath" cert) as [ec|] eqn:Hc,
             (checkVar "keyFilePath" key) as [ek|] eqn:Hk; try congruence.
    intros _.
    assert (Huc : usable cert = false).
    { destruct (usable cert) eqn:Hu; [|reflexivity].
      apply (checkVar_usable "certFilePath") in Hu. congruence. }
    assert (Huk : usable key = false).
    { destruct (usable key) eqn:Hu; [|reflexivity].
      apply (checkVar_usable "keyFilePath") in Hu. congruence. }
    destruct cert, key; try discriminate; repeat split; congruence.
Qed.

Lemma checkCertFilePath_map_order_witness :
  Str "" <> Nil /\ Other <> Nil /\ usable (Str "") = false /\ usable Other = false.
Proof.
  apply (checkCertFilePath_map_order (Str "") Other Nil).
  vm_compute. discriminate.
Defined.

(** X8.  [AddCertFileContent] never loads its PKCS#12 content: its three
    arguments reach [AddCertFilePath] as byte slices, which are not nil even
    when empty, so the call does what [AddCertPemFileContent] does on the
    first two, and with an empty certificate or key content it fails with a
    [ConfigurationError] whatever the PKCS#12 content is. *)
Theorem AddCertFileContent_ignores_pkcs12
    {Cert Block : Type} (host : Host Cert Block) (certFirst : bool)
    (w : Client Cert) (certFileContent keyFileContent pkcs12FileContent : bytes) :
  AddCertFileContent host certFirst w certFileContent keyFileContent pkcs12FileContent
  = AddCertPemFileContent host certFirst w certFileContent keyFileContent
  /\ (len certFileContent = 0 \/ len keyFileContent = 0 ->
      exists e,
        AddCertFileContent host certFirst w
          certFileContent keyFileContent pkcs12FileContent
        = Done (w, Some e)
        /\ ConfigurationError e = true).
Proof.
  split; [reflexivity|].
  intros Hempty.
  assert (Hchk : checkCertFilePath certFirst (Bytes certFileContent)
                   (Bytes keyFileContent) (Bytes pkcs12FileContent) <> None).
  { rewrite checkCertFilePath_accepts. simpl.
    intros [[H _] | [[Hc Hk] | [[H | H] _]]]; try discriminate.
    destruct Hempty as [H | H]; rewrite H in *; discriminate. }
  destruct (checkCertFilePath certFirst (Bytes certFileContent)
              (Bytes keyFileContent) (Bytes pkcs12FileContent)) as [e|] eqn:He;
    [|congruence].
  exists e. split.
  - apply AddCertFilePath_check_failed, He.
  - apply (checkCertFilePath_is_configuration certFirst _ _ _ e He).
Qed.

Lemma AddCertFileContent_ignores_pkcs12_witness :
  exists e,
    AddCertFileContent Sample.host true Sample.client None None (Some ["x"%byte])
    = Done (Sample.client, Some e)
    /\ ConfigurationError e = true.
Proof.
  apply (AddCertFileContent_ignores_pkcs12 Sample.host true Sample.client
           None None (Some ["x"%byte])).
  left. reflexivity.
Defined.

(** X9.  The registrations by content read no file: over any other disk
    they return the same result. *)
Theorem content_registration_reads_no_file
    {Cert Block : Type} (host : Host Cert Block)
    (disk : string -> bytes * option error) (certFirst : bool) (w : Client Cert)
    (certFileContent keyFileContent pkcs12FileContent : bytes) :
  AddCertFileContent (withDisk host disk) certFirst w
    certFileContent keyFileContent pkcs12FileContent
  = AddCertFileContent host certFirst w
      certFileContent keyFileContent pkcs12FileContent
  /\ AddCertPemFileContent (withDisk host disk) certFirst w
       certFileContent keyFileContent
     = AddCertPemFileContent host certFirst w certFileContent keyFileContent
  /\ AddCertPkcs12FileContent (withDisk host disk) certFirst w pkcs12FileContent
     = AddCertPkcs12FileContent host certFirst w pkcs12FileContent.
Proof. repeat split. Qed.

(** ** The PKCS#12 path *)

Section Pkcs12Facts.

Context {Cert Block : Type}.
Variable host : Host Cert Block.
Implicit Types (w : Client Cert) (cert key pfx : iface) (blocks : list Block).







End Pkcs12Facts.





(** * Further properties of the signature engine *)

Section HexFacts.

(** The characters of an upper-cased hex text, byte by byte. *)
Lemma upper_hex_chars (src : list byte) :
  list_ascii_of_string (ToUpper (EncodeToString src))
  = concat (map (fun b => map upper (hexbyte b)) src).
Proof.
  unfold ToUpper, EncodeToString.
  rewrite !list_ascii_of_string_of_list_ascii, concat_map, map_map. reflexivity.
Qed.

Lemma upper_hexbyte_digits (b : byte) :
  forallb is_upper_hex (map upper (hexbyte b)) = true.
Proof. destruct b; vm_compute; reflexivity. Qed.

Lemma upper_hexbyte_decodes (b : byte) :
  decodeUpper (map upper (hexbyte b)) = Some [b].
Proof. destruct b; vm_compute; reflexivity. Qed.

Lemma decodeUpper_step (hi lo : ascii) (rest : list ascii) (b : byte) :
  decodeUpper [hi; lo] = Some [b] ->
  decodeUpper (hi :: lo :: rest) = cons b <$> decodeUpper rest.
Proof.
  simpl.
  destruct (hexval hi) as [h|]; [|discriminate].
  destruct (hexval lo) as [l|]; [|discriminate].
  destruct (Byte.of_N (h * 16 + l)) as [b'|]; [|discriminate].
  intros Heq. injection Heq as ->.
  destruct (decodeUpper rest); reflexivity.
Qed.

Lemma decodeUpper_upper_hex (src : list byte) :
  decodeUpper (concat (map (fun b => map upper (hexbyte b)) src)) = Some src.
Proof.
  induction src as [|b src IH]; [reflexivity|].
  change (concat (map (fun b => map upper (hexbyte b)) (b :: src)))
    with (upper (hexdigit (Byte.to_N b / 16))
          :: upper (hexdigit (Byte.to_N b mod 16))
          :: concat (map (fun b => map upper (hexbyte b)) src)).
  rewrite (decodeUpper_step _ _ _ b (upper_hexbyte_decodes b)), IH. reflexivity.
Qed.

Lemma forallb_concat_map {A B : Type} (P : B -> bool) (g : A -> list B) (l : list A) :
  (forall a, forallb P (g a) = true) ->
  forallb P (concat (map g l)) = true.
Proof.
  intros Hg. induction l as [|a l IH]; simpl; [reflexivity|].
  rewrite forallb_app, Hg, IH. reflexivity.
Qed.

Lemma length_concat_map {A B : Type} (g : A -> list B) (n : nat) (l : list A) :
  (forall a, length (g a) = n) ->
  length (concat (map g l)) = n * length l.
Proof.
  intros Hg. induction l as [|a l IH]; simpl; [lia|].
  rewrite length_app, Hg, IH. lia.
Qed.

Lemma string_of_list_ascii_length (cs : list ascii) :
  String.length (string_of_list_ascii cs) = length cs.
Proof. induction cs as [|c cs IH]; simpl; congruence. Qed.

End HexFacts.

(** X12.  A release signature is a text of upper-case hexadecimal digits,
    two for each byte of the digest. *)
Theorem getReleaseSign_is_upper_hex
    (codec : Codec) (apiKey signType : string) (bm : BodyMap) :
  let sum := digest codec (selectHash apiKey signType)
               (list_byte_of_string (EncodeWeChatSignParams codec bm apiKey)) in
  let sign := getReleaseSign codec apiKey signType bm in
  forallb is_upper_hex (list_ascii_of_string sign) = true
  /\ String.length sign = 2 * length sum.
Proof.
  intros sum sign. subst sign. unfold getReleaseSign. cbv zeta. fold sum.
  split.
  - rewrite upper_hex_chars.
    apply forallb_concat_map, upper_hexbyte_digits.
  - rewrite <- (string_of_list_ascii_of_string (ToUpper (EncodeToString sum))).
    rewrite string_of_list_ascii_length, upper_hex_chars.
    apply length_concat_map. reflexivity.
Qed.

(** X13.  A release signature determines the digest it renders: reading the
    text back gives the digest, so two calls return the same signature
    exactly when their digests are equal. *)
Theorem getReleaseSign_determines_digest
    (codec : Codec) (apiKey signType : string) (bm : BodyMap)
    (apiKey' signType' : string) (bm' : BodyMap) :
  let sum := digest codec (selectHash apiKey signType)
               (list_byte_of_string (EncodeWeChatSignParams codec bm apiKey)) in
  let sum' := digest codec (selectHash apiKey' signType')
                (list_byte_of_string (EncodeWeChatSignParams codec bm' apiKey')) in
  decodeUpper (list_ascii_of_string (getReleaseSign codec apiKey signType bm))
  = Some sum
  /\ (getReleaseSign codec apiKey signType bm
      = getReleaseSign codec apiKey' signType' bm'
      <-> sum = sum').
Proof.
  intros sum sum'.
  assert (Hback : forall d,
             decodeUpper (list_ascii_of_string (ToUpper (EncodeToString d))) = Some d).
  { intros d. rewrite upper_hex_chars. apply decodeUpper_upper_hex. }
  unfold getReleaseSign. cbv zeta. fold sum. fold sum'.
  split; [apply Hback|]. split.
  - intros Heq. pose proof (Hback sum) as H. rewrite Heq, Hback in H. congruence.
  - intros ->. reflexivity.
Qed.

(** * Further properties of the sandbox key exchange *)

Section SandboxSignFacts.

Variable codec : Codec.
Variable remote : Remote.

(** One run of [getSignBoxSign], read off the answer to its request. *)
Lemma getSignBoxSign_run (mchId apiKey : string) (bm : BodyMap) (σ : World) :
  getSignBoxSign codec remote mchId apiKey bm σ
  = (let nonceStr := GetRandomString remote (drawn σ) 32 in
     let sign := getReleaseSign codec apiKey SignType_MD5
                   (Set_ "nonce_str" nonceStr (Set_ "mch_id" mchId ∅)) in
     let body := generateXml codec (keyRequest mchId nonceStr sign) in
     let answer := EndStruct remote (posted σ) (sandboxGetSignKey remote) body in
     (match answer.2 with
      | e :: _ => (NULL, Some e)
      | [] => if String.eqb (ReturnCode answer.1) "FAIL"
              then (NULL, Some (New (ReturnMsg answer.1)))
              else (getReleaseSign codec (SandboxSignkey answer.1) SignType_MD5 bm,
                    None)
      end,
      {| posted := posted σ ++ [(sandboxGetSignKey remote, body)];
         drawn := S (drawn σ) |})).
Proof.
  unfold getSignBoxSign, bind, randomString, getSanBoxKey.
  rewrite getSanBoxSignKey_run. cbv zeta. simpl posted. simpl drawn.
  destruct (EndStruct remote _ _ _) as [keyResponse [|e errs]]; simpl; [|reflexivity].
  destruct (String.eqb (ReturnCode keyResponse) "FAIL"); reflexivity.
Qed.

End SandboxSignFacts.

(** X14.  [getSignBoxSign] draws one random string and posts one request.
    When the exchange fails, by the transport or by a FAIL answer, it returns
    an empty signature with the error of the exchange.  Otherwise it returns
    the MD5 release signature of its parameters under the key of the answer;
    the real API key signs the key request only. *)
Theorem getSignBoxSign_outcomes
    (codec : Codec) (remote : Remote) (mchId apiKey : string) (bm : BodyMap)
    (σ : World) :
  let nonceStr := GetRandomString remote (drawn σ) 32 in
  let sign := getReleaseSign codec apiKey SignType_MD5
                (Set_ "nonce_str" nonceStr (Set_ "mch_id" mchId ∅)) in
  let body := generateXml codec (keyRequest mchId nonceStr sign) in
  let answer := EndStruct remote (posted σ) (sandboxGetSignKey remote) body in
  let run := getSignBoxSign codec remote mchId apiKey bm σ in
  run.2 = {| posted := posted σ ++ [(sandboxGetSignKey remote, body)];
             drawn := S (drawn σ) |}
  /\ (forall e rest, answer.2 = e :: rest -> run.1 = (NULL, Some e))
  /\ (answer.2 = [] -> ReturnCode answer.1 = "FAIL" ->
      run.1 = (NULL, Some (New (ReturnMsg answer.1))))
  /\ (answer.2 = [] -> ReturnCode answer.1 <> "FAIL" ->
      run.1 = (getReleaseSign codec (SandboxSignkey answer.1) SignType_MD5 bm, None)
      /\ run.1.1
         = ToUpper (EncodeToString
                      (md5_Sum codec
                         (list_byte_of_string
                            (EncodeWeChatSignParams codec bm
                               (SandboxSignkey answer.1)))))).
Proof.
  intros nonceStr sign body answer run. subst run.
  rewrite getSignBoxSign_run. cbv zeta.
  fold nonceStr. fold sign. fold body. fold answer. simpl.
  split; [reflexivity|]. split; [|split].
  - intros e rest ->. reflexivity.
  - intros -> ->. reflexivity.
  - intros -> Hne.
    destruct (String.eqb_spec (ReturnCode answer.1) "FAIL"); [contradiction|].
    split; reflexivity.
Qed.

Lemma getSignBoxSign_outcomes_witness :
  (getSignBoxSign (Sample.codec false) Sample.remoteDown "1900000109"
     "192006250b4c09247ec02edce69f6a2d" (Set_ "total_fee" "1" ∅) Sample.world0).1
  = (NULL, Some (Foreign "dial tcp: i/o timeout")).
Proof.
  destruct (getSignBoxSign_outcomes (Sample.codec false) Sample.remoteDown
              "1900000109" "192006250b4c09247ec02edce69f6a2d"
              (Set_ "total_fee" "1" ∅) Sample.world0) as [_ [Hdown _]].
  apply (Hdown (Foreign "dial tcp: i/o timeout") [Foreign "EOF"]). reflexivity.
Defined.

(** * Registration of a PEM pair *)

(** X15.  A PEM pair that the parser accepts is registered as the
    certificate the parser returns.  Given as byte contents, the pair goes to
    the parser as it is; given as paths, what goes to the parser is what the
    two reads returned. *)
Theorem pem_pair_is_registered
    {Cert Block : Type} (host : Host Cert Block) (certFirst : bool)
    (w : Client Cert) (pfx : iface) (certPem keyPem : list byte) (crt : Cert) :
  certPem <> [] -> keyPem <> [] ->
  X509KeyPair host (Some certPem) (Some keyPem) = (crt, None) ->
  AddCertFilePath host certFirst w (Bytes (Some certPem)) (Bytes (Some keyPem)) pfx
  = Done (withCache w (Some crt), None)
  /\ (forall certFilePath keyFilePath,
         certFilePath <> NULL -> keyFilePath <> NULL ->
         ReadFile host certFilePath = (Some certPem, None) ->
         ReadFile host keyFilePath = (Some keyPem, None) ->
         AddCertFilePath host certFirst w (Str certFilePath) (Str keyFilePath) pfx
         = Done (withCache w (Some crt), None)).
Proof.
  intros Hc Hk Hpair. split.
  - unfold AddCertFilePath, checkCertFilePath, addCertConfig, loadCertConfig,
      parsePair. simpl.
    destruct certPem; [congruence|]. destruct keyPem; [congruence|].
    destruct certFirst; simpl; rewrite Hpair; reflexivity.
  - intros cpath kpath Hcp Hkp Hrc Hrk.
    unfold AddCertFilePath, checkCertFilePath, addCertConfig, loadCertConfig,
      parsePair. simpl.
    apply String.eqb_neq in Hcp, Hkp.
    destruct certFirst; simpl; rewrite Hcp, Hkp, Hrc, Hrk; simpl;
      rewrite Hpair; reflexivity.
Qed.

Lemma pem_pair_is_registered_witness :
  AddCertFilePath Sample.host true Sample.client
    (Bytes (Some (list_byte_of_string "PEM apiclient_cert.pem")))
    (Bytes (Some (list_byte_of_string "PEM apiclient_key.pem"))) Nil
  = Done (withCache Sample.client
            (Some (list_byte_of_string "PEM apiclient_cert.pem",
                   list_byte_of_string "PEM apiclient_key.pem")), None)
  /\ AddCertFilePath Sample.host true Sample.client
       (Str "apiclient_cert.pem") (Str "apiclient_key.pem") Nil
     = Done (withCache Sample.client
               (Some (list_byte_of_string "PEM apiclient_cert.pem",
                      list_byte_of_string "PEM apiclient_key.pem")), None).
Proof.
  destruct (pem_pair_is_registered Sample.host true Sample.client Nil
              (list_byte_of_string "PEM apiclient_cert.pem")
              (list_byte_of_string "PEM apiclient_key.pem")
              (list_byte_of_string "PEM apiclient_cert.pem",
               list_byte_of_string "PEM apiclient_key.pem"))
    as [Hbytes Hpaths]; [discriminate | discriminate | reflexivity |].
  split; [exact Hbytes|].
  apply Hpaths; [discriminate | discriminate | reflexivity | reflexivity].
Defined.

(** X16.  With both PEM files given as paths, a read error of the certificate
    file followed by a successful read of the key file is never reported: the
    loader goes on to the pair parser with what the two reads returned, and
    whatever error it then returns is not built around the read error. *)
Theorem cert_read_error_is_erased_by_key_read
    {Cert Block : Type} (host : Host Cert Block) (w : Client Cert)
    (certFilePath keyFilePath : string) (pfx : iface)
    (certPem keyPem : bytes) (cause : error) :
  ReadFile host certFilePath = (certPem, Some cause) ->
  ReadFile host keyFilePath = (keyPem, None) ->
  addCertConfig host w (Str certFilePath) (Str keyFilePath) pfx
  = parsePair host certPem keyPem
  /\ forall config e,
      addCertConfig host w (Str certFilePath) (Str keyFilePath) pfx
      = Done (config, Some e) ->
      ~ IOError e cause.
Proof.
  intros Hc Hk.
  assert (Hrun : addCertConfig host w (Str certFilePath) (Str keyFilePath) pfx
                 = parsePair host certPem keyPem).
  { unfold addCertConfig. simpl.
    apply (loadCertConfig_cert_read_error_erased host w _ _ pfx _ cause _ Hc Hk). }
  split; [exact Hrun|].
  intros config e. rewrite Hrun. unfold parsePair, IOError.
  destruct (negb (is_nil_slice certPem) && negb (is_nil_slice keyPem)).
  - destruct (X509KeyPair host certPem keyPem) as [crt [e'|]];
      intros Heq; injection Heq as _ He; try discriminate He;
      subst e; discriminate.
  - intros Heq; injection Heq as _ He; subst e; discriminate.
Qed.

Lemma cert_read_error_is_erased_by_key_read_witness :
  addCertConfig Sample.host Sample.client
    (Str "missing.pem") (Str "apiclient_key.pem") Nil
  = parsePair Sample.host None (Some (list_byte_of_string "PEM apiclient_key.pem")).
Proof.
  apply (cert_read_error_is_erased_by_key_read Sample.host Sample.client
           "missing.pem" "apiclient_key.pem" Nil None
           (Some (list_byte_of_string "PEM apiclient_key.pem"))
           (Foreign "open missing.pem: no such file or directory"));
    reflexivity.
Defined.
